(** * A shallow embedding of [src/src/lib.rs] (gpsService)

    The crate has two pieces of logic: [get_gps_coordinates], which walks
    the Android location API through JNI and either returns a coordinate
    pair or a boxed error, and the worker closure spawned by
    [android_main], which formats that result and writes it into the
    [gps-text] property of the Slint [MainWindow] through a weak handle.

    JNI and Android are modelled as an oracle ([platform]): every call
    the source makes across the JNI boundary is logged as an [event]
    together with the answer the platform gave, and the answer may depend
    on everything logged before it.  [get_gps_coordinates] is written in a
    small state-and-error monad that threads that log, so [?] and the
    early [return Err(..)] of the Rust code become [bind] and [fail]. *)

From Stdlib Require Import String Ascii ZArith List Bool Lia Floats.
From Stdlib Require Import DecimalString.
Import ListNotations.
Open Scope string_scope.
Open Scope Z_scope.

(** ** Rust-side data *)

(** [Result<T, E>]. *)
Inductive result (A E : Type) : Type :=
| Ok (a : A)
| Err (e : E).
Arguments Ok {A E} a.
Arguments Err {A E} e.

(** [f64]: the IEEE binary64 value, as Rocq's primitive float. *)
Definition f64 := float.

(** ** The jni crate *)

(** [jni::errors::Error].  [WrongJValueType] is the one variant the
    crate raises on its own (a [.i()], [.l()], [.z()] or [.d()] cast on a
    value of another type); every other variant comes out of the JVM and
    is represented by its [Display] text. *)
Inductive jni_error : Type :=
| WrongJValueType (expected actual : string)
| JniOther (msg : string).

(** [impl Display for jni::errors::Error]. *)
Definition jni_error_msg (e : jni_error) : string :=
  match e with
  | WrongJValueType exp act =>
      "Invalid JValue type cast: " ++ exp ++ ". Actual type: " ++ act
  | JniOther msg => msg
  end.

(** [JObject]: the null reference, a reference built from a raw pointer
    ([JObject::from_raw]) or returned by the JVM, or a [java.lang.String]
    created by [env.new_string] (it carries its contents). *)
Inductive jobject : Type :=
| JNull
| JRef (ptr : Z)
| JStr (s : string).

Definition is_null (o : jobject) : bool :=
  match o with JNull => true | _ => false end.

(** [JObject::from_raw]: a null pointer is the null reference. *)
Definition jobject_from_raw (ptr : Z) : jobject :=
  if ptr =? 0 then JNull else JRef ptr.

(** [JValueOwned], the result of [env.call_method]. *)
Inductive jvalue : Type :=
| JVObject (o : jobject)
| JVBool (b : bool)
| JVInt (i : Z)
| JVDouble (d : f64)
| JVVoid.

Definition jvalue_type_name (v : jvalue) : string :=
  match v with
  | JVObject _ => "object"
  | JVBool _ => "boolean"
  | JVInt _ => "int"
  | JVDouble _ => "double"
  | JVVoid => "void"
  end.

(** The casts [.l()], [.z()], [.i()] and [.d()] of [JValueGen]. *)
Definition jv_l (v : jvalue) : result jobject jni_error :=
  match v with
  | JVObject o => Ok o
  | _ => Err (WrongJValueType "object" (jvalue_type_name v))
  end.

Definition jv_z (v : jvalue) : result bool jni_error :=
  match v with
  | JVBool b => Ok b
  | _ => Err (WrongJValueType "boolean" (jvalue_type_name v))
  end.

Definition jv_i (v : jvalue) : result Z jni_error :=
  match v with
  | JVInt i => Ok i
  | _ => Err (WrongJValueType "int" (jvalue_type_name v))
  end.

Definition jv_d (v : jvalue) : result f64 jni_error :=
  match v with
  | JVDouble d => Ok d
  | _ => Err (WrongJValueType "double" (jvalue_type_name v))
  end.

(** ** The platform *)

(** One interaction across the native/managed boundary, with the answer
    the platform gave to it. *)
Inductive event : Type :=
| EContext (vm context : Z)
    (** [ndk_context::android_context()]: the [vm] and [context] pointers *)
| EFromRaw (out : option jni_error)
    (** [JavaVM::from_raw] *)
| EAttach (out : option jni_error)
    (** [vm.attach_current_thread()] *)
| ENewString (s : string) (out : option jni_error)
    (** [env.new_string(s)] *)
| ECall (obj : jobject) (name sig : string) (args : list jobject)
        (out : result jvalue jni_error).
    (** [env.call_method(obj, name, sig, args)] *)

(** The platform answers each call given the log of all earlier ones.
    (The process host initialises the NDK context before [android_main]
    runs, so [android_context()] always returns a pair of pointers.) *)
Record platform : Type := {
  p_context : list event -> Z * Z;
  p_from_raw : list event -> option jni_error;
  p_attach : list event -> option jni_error;
  p_new_string : list event -> string -> option jni_error;
  p_call : list event -> jobject -> string -> string -> list jobject ->
           result jvalue jni_error
}.

(** [Box<dyn std::error::Error>] as [get_gps_coordinates] builds it: from
    a string literal ([.into()]) or from a jni error (the [?] operator). *)
Inductive box_error : Type :=
| BoxStr (msg : string)
| BoxJni (e : jni_error).

(** [impl Display for Box<dyn Error>]. *)
Definition box_error_msg (e : box_error) : string :=
  match e with
  | BoxStr msg => msg
  | BoxJni j => jni_error_msg j
  end.

(** ** A state-and-error monad over the interaction log *)

Section Fetch.

Variable p : platform.

Definition M (A : Type) : Type := list event -> result A box_error * list event.

Definition ret {A} (a : A) : M A := fun tr => (Ok a, tr).

Definition bind {A B} (m : M A) (k : A -> M B) : M B :=
  fun tr =>
    match m tr with
    | (Ok a, tr') => k a tr'
    | (Err e, tr') => (Err e, tr')
    end.

Definition fail {A} (e : box_error) : M A := fun tr => (Err e, tr).

(** The [?] operator on a jni result. *)
Definition lift_jni {A} (r : result A jni_error) : M A :=
  fun tr =>
    match r with
    | Ok a => (Ok a, tr)
    | Err j => (Err (BoxJni j), tr)
    end.

Notation "x <- m ;; k" := (bind m (fun x => k))
  (at level 61, m at next level, right associativity).

(** The platform calls, each logged with its answer. *)
Definition android_context : M (Z * Z) :=
  fun tr => let '(vm, cx) := p_context p tr in
            (Ok (vm, cx), app tr [EContext vm cx]).

Definition unit_call (mk : option jni_error -> event) (out : option jni_error)
  : M unit :=
  fun tr =>
    match out with
    | None => (Ok tt, app tr [mk None])
    | Some j => (Err (BoxJni j), app tr [mk (Some j)])
    end.

Definition java_vm_from_raw : M unit :=
  fun tr => unit_call EFromRaw (p_from_raw p tr) tr.

Definition attach_current_thread : M unit :=
  fun tr => unit_call EAttach (p_attach p tr) tr.

Definition new_string (s : string) : M jobject :=
  fun tr =>
    match p_new_string p tr s with
    | None => (Ok (JStr s), app tr [ENewString s None])
    | Some j => (Err (BoxJni j), app tr [ENewString s (Some j)])
    end.

Definition call_method (o : jobject) (name sig : string) (args : list jobject)
  : M jvalue :=
  fun tr =>
    let out := p_call p tr o name sig args in
    match out with
    | Ok v => (Ok v, app tr [ECall o name sig args out])
    | Err j => (Err (BoxJni j), app tr [ECall o name sig args out])
    end.

(** The five failure messages of [get_gps_coordinates]. *)
Definition msg_context := "Contexto Android não disponível".
Definition msg_permission := "Permissão de localização não concedida".
Definition msg_service := "Serviço de localização não disponível".
Definition msg_provider := "Provedor GPS está desativado".
Definition msg_no_location := "Nenhuma localização conhecida disponível".

(** [fn get_gps_coordinates() -> Result<(f64, f64), Box<dyn Error>>]. *)
Definition get_gps_coordinates : M (f64 * f64) :=
  ctx <- android_context ;;
  let '(vm_ptr, env_ptr) := ctx in
  if (vm_ptr =? 0) || (env_ptr =? 0) then fail (BoxStr msg_context) else
  _ <- java_vm_from_raw ;;
  _ <- attach_current_thread ;;
  let context := jobject_from_raw env_ptr in
  permission_str <- new_string "android.permission.ACCESS_FINE_LOCATION" ;;
  v1 <- call_method context "checkSelfPermission" "(Ljava/lang/String;)I"
          [permission_str] ;;
  has_permission <- lift_jni (jv_i v1) ;;
  if negb (has_permission =? 0) then fail (BoxStr msg_permission) else
  service_str <- new_string "location" ;;
  v2 <- call_method context "getSystemService"
          "(Ljava/lang/String;)Ljava/lang/Object;" [service_str] ;;
  location_service <- lift_jni (jv_l v2) ;;
  if is_null location_service then fail (BoxStr msg_service) else
  let location_manager := location_service in
  provider_str <- new_string "gps" ;;
  v3 <- call_method location_manager "isProviderEnabled"
          "(Ljava/lang/String;)Z" [provider_str] ;;
  is_enabled <- lift_jni (jv_z v3) ;;
  if negb is_enabled then fail (BoxStr msg_provider) else
  gps_str <- new_string "gps" ;;
  v4 <- call_method location_manager "getLastKnownLocation"
          "(Ljava/lang/String;)Landroid/location/Location;" [gps_str] ;;
  location_obj <- lift_jni (jv_l v4) ;;
  if is_null location_obj then fail (BoxStr msg_no_location) else
  v5 <- call_method location_obj "getLatitude" "()D" [] ;;
  latitude <- lift_jni (jv_d v5) ;;
  v6 <- call_method location_obj "getLongitude" "()D" [] ;;
  longitude <- lift_jni (jv_d v6) ;;
  ret (latitude, longitude).

End Fetch.

(** One run of [get_gps_coordinates] from an empty log: its result and
    the log of every platform call it made, in order. *)
Definition run_fetch (p : platform) : result (f64 * f64) box_error * list event :=
  get_gps_coordinates p [].

(** ** [format!("{:.4}", x)] on an [f64]

    Rust prints a finite float with a fixed precision from its exact
    binary value: the value [m * 2^e] is scaled by [10^4] and rounded to
    the nearest integer, ties to even; the sign is printed whenever the
    sign bit is set (also for [-0.0]); NaN and the infinities ignore the
    precision. *)

Definition sign_str (s : bool) : string := if s then "-" else "".

(** [num / den] rounded to the nearest integer, ties to even ([den > 0]). *)
Definition div_round_half_even (num den : Z) : Z :=
  let q := num / den in
  let r := num mod den in
  match Z.compare (2 * r) den with
  | Lt => q
  | Gt => q + 1
  | Eq => if Z.even q then q else q + 1
  end.

(** [round(m * 2^e * 10^4)]. *)
Definition scaled4 (m : positive) (e : Z) : Z :=
  if 0 <=? e then Zpos m * 2 ^ e * 10000
  else div_round_half_even (Zpos m * 10000) (2 ^ (- e)).

Definition digit (d : Z) : ascii := ascii_of_nat (48 + Z.to_nat d).

(** The four fractional digits of [n mod 10000]. *)
Definition frac4 (n : Z) : string :=
  String (digit (n / 1000 mod 10)) (String (digit (n / 100 mod 10))
    (String (digit (n / 10 mod 10)) (String (digit (n mod 10)) EmptyString))).

(** The decimal digits of a non-negative integer. *)
Definition int_digits (n : Z) : string :=
  NilEmpty.string_of_uint (N.to_uint (Z.to_N n)).

Definition fmt_f64_prec4 (x : f64) : string :=
  match Prim2SF x with
  | S754_zero s => sign_str s ++ "0.0000"
  | S754_infinity s => sign_str s ++ "inf"
  | S754_nan => "NaN"
  | S754_finite s m e =>
      let n := scaled4 m e in
      sign_str s ++ int_digits (n / 10000) ++ "." ++ frac4 (n mod 10000)
  end.

(** ** The worker closure of [android_main] *)

(** The Slint component [MainWindow]: one [in property <string> gps-text]
    shown verbatim by a read-only [LineEdit]. *)
Record MainWindow : Type := { gps_text : string }.


(** [window.set_gps_text(s)]. *)
Definition set_gps_text (s : string) (w : MainWindow) : MainWindow :=
  {| gps_text := s |}.

(** What the [LineEdit] displays: [text: gps-text]. *)
Definition line_edit_text (w : MainWindow) : string := gps_text w.

(** [format!("Latitude: {:.4}, Longitude: {:.4}", lat, lon)]. *)
Definition success_text (lat lon : f64) : string :=
  "Latitude: " ++ fmt_f64_prec4 lat ++ ", Longitude: " ++ fmt_f64_prec4 lon.

(** [format!("Erro: {}", e)]. *)
Definition error_text (e : box_error) : string := "Erro: " ++ box_error_msg e.


(** The worker thread and the window's lifetime, as a transition system.
    [android_main] keeps the only strong handle to the window and runs the
    event loop; when the user closes the window, [window.run()] returns and
    the window is dropped ([s_window] becomes [None]).  The worker holds
    [window.as_weak()] and resolves it with [Weak::upgrade], which yields a
    live handle only while the window exists; the library may also refuse
    a live window (it does so off the window's thread), so [upgrade] is
    any resolution that never invents a window. *)

Inductive worker_pc : Type :=
| WStart                                        (** spawned *)
| WFetched (r : result (f64 * f64) box_error)   (** [get_gps_coordinates()] returned [r] *)
| WDone (r : result (f64 * f64) box_error).     (** closure finished *)

Record sys : Type := mk_sys {
  s_window : option MainWindow;   (** [None] once the window is dropped *)
  s_worker : worker_pc;
  s_writes : list string          (** every [set_gps_text] call, in order *)
}.

Section Worker.

Variable upgrade : option MainWindow -> option MainWindow.
Hypothesis upgrade_sound : forall win w, upgrade win = Some w -> win = Some w.

(** The [match get_gps_coordinates() { .. }] of the closure, from the
    moment the result is known: the new window state and the writes made. *)
Definition apply_result (r : result (f64 * f64) box_error) (win : option MainWindow)
  : option MainWindow * list string :=
  match r with
  | Ok (lat, lon) =>
      let text := success_text lat lon in
      match upgrade win with
      | Some window => (Some (set_gps_text text window), [text])
      | None => (win, [])
      end
  | Err e =>
      let error_text := error_text e in
      match upgrade win with
      | Some window => (Some (set_gps_text error_text window), [error_text])
      | None => (win, [])
      end
  end.

Variable p : platform.

(** Steps of the worker thread. *)
Inductive worker_step : sys -> sys -> Prop :=
| ws_fetch : forall win ws,
    worker_step (mk_sys win WStart ws)
                (mk_sys win (WFetched (fst (run_fetch p))) ws)
| ws_apply : forall win r ws,
    worker_step (mk_sys win (WFetched r) ws)
                (mk_sys (fst (apply_result r win)) (WDone r)
                        (app ws (snd (apply_result r win)))).



Inductive worker_steps : sys -> sys -> Prop :=
| wsteps_refl : forall s, worker_steps s s
| wsteps_cons : forall s1 s2 s3,
    worker_step s1 s2 -> worker_steps s2 s3 -> worker_steps s1 s3.


End Worker.

(** ** Observations on the interaction log *)



Fixpoint last_event (tr : list event) : option event :=
  match tr with
  | [] => None
  | [ev] => Some ev
  | _ :: tr' => last_event tr'
  end.


(** The fixed failure messages. *)
Definition fixed_reasons : list string :=
  [msg_context; msg_permission; msg_service; msg_provider; msg_no_location].

(** Which provider a call queries, if any. *)
Definition provider_arg (ev : event) : option (list jobject) :=
  match ev with
  | ECall _ name _ args _ =>
      if String.eqb name "isProviderEnabled" then Some args
      else if String.eqb name "getLastKnownLocation" then Some args
      else None
  | _ => None
  end.

(** The jni error a logged call answered with, if it failed. *)
Definition event_error (ev : event) : option jni_error :=
  match ev with
  | EContext _ _ => None
  | EFromRaw out | EAttach out | ENewString _ out => out
  | ECall _ _ _ _ (Err j) => Some j
  | ECall _ _ _ _ (Ok _) => None
  end.

(** Whether a logged event only names the GPS provider, and
    which strings the run passes to [new_string]. *)
Definition gps_only (ev : event) : Prop :=
  match provider_arg ev with
  | Some args => args = [JStr "gps"]
  | None => True
  end.

Definition new_string_arg (ev : event) : option string :=
  match ev with
  | ENewString s _ => Some s
  | _ => None
  end.



(** A platform whose JNI calls all succeed, answering the five queries of
    [get_gps_coordinates] with the given values. *)
Definition demo_platform (vm cx perm : Z) (service location : jobject)
    (enabled : bool) (lat lon : f64) : platform := {|
  p_context := fun _ => (vm, cx);
  p_from_raw := fun _ => None;
  p_attach := fun _ => None;
  p_new_string := fun _ _ => None;
  p_call := fun _ _ name _ _ =>
    if String.eqb name "checkSelfPermission" then Ok (JVInt perm)
    else if String.eqb name "getSystemService" then Ok (JVObject service)
    else if String.eqb name "isProviderEnabled" then Ok (JVBool enabled)
    else if String.eqb name "getLastKnownLocation" then Ok (JVObject location)
    else if String.eqb name "getLatitude" then Ok (JVDouble lat)
    else if String.eqb name "getLongitude" then Ok (JVDouble lon)
    else Err (JniOther "java.lang.NoSuchMethodError")
|}.




(** The Java methods [get_gps_coordinates] invokes, with the JNI
    signature it passes for each. *)
Definition java_methods : list (string * string) :=
  [("checkSelfPermission", "(Ljava/lang/String;)I");
   ("getSystemService", "(Ljava/lang/String;)Ljava/lang/Object;");
   ("isProviderEnabled", "(Ljava/lang/String;)Z");
   ("getLastKnownLocation", "(Ljava/lang/String;)Landroid/location/Location;");
   ("getLatitude", "()D");
   ("getLongitude", "()D")].



(** ** Proofs about [get_gps_coordinates] *)

(** Runs [get_gps_coordinates] symbolically: every platform answer and
    every test on it is split, leaving one goal per path of the code. *)
Ltac run_paths p :=
  unfold run_fetch, get_gps_coordinates, bind, ret, fail, lift_jni,
    android_context, java_vm_from_raw, attach_current_thread, unit_call,
    new_string, call_method;
  repeat (simpl;
   first
   [ match goal with |- context [p_context p ?t] =>
       destruct (p_context p t) as [?vm ?cx] end
   | match goal with |- context [p_from_raw p ?t] =>
       destruct (p_from_raw p t) end
   | match goal with |- context [p_attach p ?t] =>
       destruct (p_attach p t) end
   | match goal with |- context [p_new_string p ?t ?s] =>
       destruct (p_new_string p t s) end
   | match goal with |- context [p_call p ?t ?o ?n ?g ?a] =>
       destruct (p_call p t o n g a) end
   | match goal with |- context [Z.eqb ?a ?z] => destruct (Z.eqb a z) eqn:? end
   | match goal with |- context [jv_i ?v] => destruct v end
   | match goal with |- context [jv_l ?v] => destruct v end
   | match goal with |- context [jv_z ?v] => destruct v end
   | match goal with |- context [jv_d ?v] => destruct v end
   | match goal with |- context [is_null ?o] => destruct o end
   | match goal with |- context [negb ?b] => destruct b end ]);
  cbn -[msg_context msg_permission msg_service msg_provider msg_no_location];
  repeat match goal with
  | H : Z.eqb _ _ = true |- _ => apply Z.eqb_eq in H
  | H : Z.eqb _ _ = false |- _ => apply Z.eqb_neq in H
  end.

(** Two different fixed messages are different results. *)
Ltac distinct_msgs :=
  match goal with
  | H : Err _ = Err _ |- _ =>
      injection H; clear H; intros;
      unfold msg_context, msg_permission, msg_service, msg_provider,
        msg_no_location in *; discriminate
  | H : Ok _ = Err _ |- _ => discriminate H
  | H : Err (BoxJni _) = Err (BoxStr _) |- _ => discriminate H
  end.






(** C6: a failed interop call ends the run with [Err] of the boxed jni
    error, and it is the last call made; an error wrapping a jni error
    comes from the last call or from casting its answer; the only string
    errors are the five fixed messages. *)
Theorem fetch_interop_error_wrapped (p : platform) :
  let '(r, tr) := run_fetch p in
  (forall ev j, In ev tr -> event_error ev = Some j ->
     r = Err (BoxJni j) /\ last_event tr = Some ev) /\
  (forall j, r = Err (BoxJni j) ->
     (exists ev, last_event tr = Some ev /\ event_error ev = Some j) \/
     (exists expected actual, j = WrongJValueType expected actual)) /\
  (forall m, r = Err (BoxStr m) -> In m fixed_reasons).
Proof.
  run_paths p;
  (split;
   [ intros ev jerr Hin Hj; simpl in Hin; decompose [or] Hin; subst;
     try contradiction; simpl in Hj; try discriminate Hj;
     injection Hj as <-; split; reflexivity
   | split;
     [ intros jerr Hj; try discriminate Hj; injection Hj as <-;
       solve [ left; eexists; split; reflexivity
             | right; do 2 eexists; reflexivity ]
     | intros m Hm; try discriminate Hm; injection Hm as <-; simpl; tauto ] ]).
Qed.


(** C7: the only provider named to [isProviderEnabled] and
    [getLastKnownLocation] is the string ["gps"], and the run builds no
    other provider name. *)
Theorem fetch_gps_provider_only (p : platform) :
  Forall gps_only (snd (run_fetch p)) /\
  Forall (fun ev => match new_string_arg ev with
                    | Some s => s = "android.permission.ACCESS_FINE_LOCATION"
                                \/ s = "location" \/ s = "gps"
                    | None => True
                    end) (snd (run_fetch p)).
Proof.
  run_paths p;
  (split; repeat (apply Forall_cons; [cbn |]); try apply Forall_nil;
   first [ exact I | reflexivity | left; reflexivity
         | right; left; reflexivity | right; right; reflexivity ]).
Qed.


(** C9: the run fails with the permission message exactly when
    [checkSelfPermission] answered an [int] other than [0]. *)
Theorem fetch_permission_nonzero (p : platform) :
  fst (run_fetch p) = Err (BoxStr msg_permission) <->
  exists ctx args v,
    In (ECall ctx "checkSelfPermission" "(Ljava/lang/String;)I" args
          (Ok (JVInt v))) (snd (run_fetch p)) /\ v <> 0.
Proof.
  run_paths p;
  (split;
   [ intro H; try distinct_msgs; do 3 eexists; (split; [simpl; tauto | eassumption])
   | intros (ctx & args & v & Hin & Hv); simpl in Hin; decompose [or] Hin;
     try contradiction; try congruence ]).
Qed.

(** ** Proofs about the display text *)






(** ** Proofs about the worker and the window *)
Section WorkerProofs.

Variable upgrade : option MainWindow -> option MainWindow.
Hypothesis upgrade_sound : forall win w, upgrade win = Some w -> win = Some w.
Variable p : platform.

Lemma upgrade_closed : upgrade None = None.
Proof.
  destruct (upgrade None) as [w|] eqn:E; [| reflexivity].
  apply upgrade_sound in E; discriminate E.
Qed.

Lemma apply_result_closed (r : result (f64 * f64) box_error) :
  apply_result upgrade r None = (None, []).
Proof.
  destruct r as [[lat lon]|e]; simpl; rewrite upgrade_closed; reflexivity.
Qed.


(** C3: once the window is gone, applying the worker's result changes
    nothing and writes nothing; and from any state of the program, whatever
    order the window's closing and the worker's steps took, the worker runs
    to its end, without writing if the window is already gone. *)
Theorem worker_tolerates_closed_window :
  (forall r, apply_result upgrade r None = (None, [])) /\
  (forall s, exists s' r,
     worker_steps upgrade p s s' /\ s_worker s' = WDone r /\
     (s_window s = None -> s_window s' = None /\ s_writes s' = s_writes s)).
Proof.
  split; [exact apply_result_closed |].
  intros [win pc ws].
  destruct pc as [| r | r].
  - set (r := fst (run_fetch p)).
    exists (mk_sys (fst (apply_result upgrade r win)) (WDone r)
                   (app ws (snd (apply_result upgrade r win)))), r.
    split; [| split; [reflexivity |]].
    + eapply wsteps_cons; [apply ws_fetch |].
      eapply wsteps_cons; [apply ws_apply | apply wsteps_refl].
    + simpl; intros ->; rewrite apply_result_closed; simpl.
      rewrite app_nil_r; split; reflexivity.
  - exists (mk_sys (fst (apply_result upgrade r win)) (WDone r)
                   (app ws (snd (apply_result upgrade r win)))), r.
    split; [| split; [reflexivity |]].
    + eapply wsteps_cons; [apply ws_apply | apply wsteps_refl].
    + simpl; intros ->; rewrite apply_result_closed; simpl.
      rewrite app_nil_r; split; reflexivity.
  - exists (mk_sys win (WDone r) ws), r.
    split; [apply wsteps_refl | split; [reflexivity | intros ->; split; reflexivity]].
Qed.

End WorkerProofs.

Section WriteOnce.

Variable upgrade : option MainWindow -> option MainWindow.
Variable p : platform.




End WriteOnce.

(** C8: setting [gps-text] twice to the same string leaves the window,
    and what its [LineEdit] shows, as setting it once does. *)
Theorem set_gps_text_idempotent (s : string) (w : MainWindow) :
  set_gps_text s (set_gps_text s w) = set_gps_text s w /\
  line_edit_text (set_gps_text s (set_gps_text s w)) =
  line_edit_text (set_gps_text s w).
Proof. split; reflexivity. Qed.

(** ** Further properties of [get_gps_coordinates] *)

(** X1: a successful run is exactly this sequence of interactions: the
    non-null pointers, the JVM attached, the permission answered [0] on
    the context object, the location service, the enabled GPS provider
    and the non-null last known location queried on that service, and the
    two coordinates read from that location. *)
Theorem fetch_success_protocol (p : platform) (lat lon : f64) :
  fst (run_fetch p) = Ok (lat, lon) ->
  exists vm cx svc loc,
    snd (run_fetch p) =
      [EContext vm cx; EFromRaw None; EAttach None;
       ENewString "android.permission.ACCESS_FINE_LOCATION" None;
       ECall (JRef cx) "checkSelfPermission" "(Ljava/lang/String;)I"
         [JStr "android.permission.ACCESS_FINE_LOCATION"] (Ok (JVInt 0));
       ENewString "location" None;
       ECall (JRef cx) "getSystemService" "(Ljava/lang/String;)Ljava/lang/Object;"
         [JStr "location"] (Ok (JVObject svc));
       ENewString "gps" None;
       ECall svc "isProviderEnabled" "(Ljava/lang/String;)Z"
         [JStr "gps"] (Ok (JVBool true));
       ENewString "gps" None;
       ECall svc "getLastKnownLocation"
         "(Ljava/lang/String;)Landroid/location/Location;"
         [JStr "gps"] (Ok (JVObject loc));
       ECall loc "getLatitude" "()D" [] (Ok (JVDouble lat));
       ECall loc "getLongitude" "()D" [] (Ok (JVDouble lon))] /\
    vm <> 0 /\ cx <> 0 /\ svc <> JNull /\ loc <> JNull.
Proof.
  run_paths p; intro H; try discriminate H;
  injection H as <- <-;
  match goal with
  | |- context [jobject_from_raw ?c] =>
      replace (jobject_from_raw c) with (JRef c)
        by (unfold jobject_from_raw; destruct (Z.eqb_spec c 0); congruence)
  end;
  subst;
  (do 4 eexists; split; [reflexivity | repeat split; (assumption || discriminate)]).
Qed.

(** X2: every Java method the run invokes is one of the six, with the JNI
    signature the source gives it. *)
Theorem fetch_only_known_methods (p : platform) :
  Forall (fun ev => match ev with
                    | ECall _ name sig _ _ => In (name, sig) java_methods
                    | _ => True
                    end) (snd (run_fetch p)).
Proof.
  run_paths p;
  repeat (apply Forall_cons; [cbn; tauto |]); apply Forall_nil.
Qed.


(** ** Further properties of the window and of the display text *)

Section WindowText.

Variable upgrade : option MainWindow -> option MainWindow.
Variable p : platform.




End WindowText.

Section ClosedStaysClosed.

Variable upgrade : option MainWindow -> option MainWindow.
Hypothesis upgrade_sound : forall win w, upgrade win = Some w -> win = Some w.
Variable p : platform.


End ClosedStaysClosed.



(** ** Witnesses: the hypotheses of the theorems hold at concrete inputs *)


(** The identity resolution of the weak handle never invents a window. *)
Lemma worker_tolerates_closed_window_witness :
  (forall win w, (fun x : option MainWindow => x) win = Some w -> win = Some w) /\
  (forall r, apply_result (fun x => x) r None = (None, [])) /\
  (forall s, exists s' r,
     worker_steps (fun x => x) (demo_platform 1 2 0 (JRef 3) (JRef 4) true
                                  1.5%float 2.5%float) s s' /\
     s_worker s' = WDone r /\
     (s_window s = None -> s_window s' = None /\ s_writes s' = s_writes s)).
Proof.
  split; [intros win w H; exact H |].
  apply (worker_tolerates_closed_window (fun x => x)).
  intros win w H; exact H.
Defined.


(** A successful run on [demo_platform]. *)
Lemma fetch_success_protocol_witness :
  fst (run_fetch (demo_platform 1 2 0 (JRef 3) (JRef 4) true 1.5%float 2.5%float))
    = Ok (1.5%float, 2.5%float) /\
  exists vm cx svc loc,
    snd (run_fetch (demo_platform 1 2 0 (JRef 3) (JRef 4) true 1.5%float 2.5%float)) =
      [EContext vm cx; EFromRaw None; EAttach None;
       ENewString "android.permission.ACCESS_FINE_LOCATION" None;
       ECall (JRef cx) "checkSelfPermission" "(Ljava/lang/String;)I"
         [JStr "android.permission.ACCESS_FINE_LOCATION"] (Ok (JVInt 0));
       ENewString "location" None;
       ECall (JRef cx) "getSystemService" "(Ljava/lang/String;)Ljava/lang/Object;"
         [JStr "location"] (Ok (JVObject svc));
       ENewString "gps" None;
       ECall svc "isProviderEnabled" "(Ljava/lang/String;)Z"
         [JStr "gps"] (Ok (JVBool true));
       ENewString "gps" None;
       ECall svc "getLastKnownLocation"
         "(Ljava/lang/String;)Landroid/location/Location;"
         [JStr "gps"] (Ok (JVObject loc));
       ECall loc "getLatitude" "()D" [] (Ok (JVDouble 1.5%float));
       ECall loc "getLongitude" "()D" [] (Ok (JVDouble 2.5%float))] /\
    vm <> 0 /\ cx <> 0 /\ svc <> JNull /\ loc <> JNull.
Proof.
  split; [reflexivity |].
  apply fetch_success_protocol; reflexivity.
Defined.



